(** * shopping_cart_agent: assistant nodes and the Brave search tool provider

    A shallow embedding of [src/assistants.py] and [src/web_search_mcp.py].
    Python values are an inductive type, exceptions are an error result, and
    the process-wide thread context and the calls made to the MCP client are
    threaded through a small state-and-exception monad. *)

From Stdlib Require Import String Ascii List ZArith Bool Lia.
Import ListNotations.
Open Scope string_scope.

(** * Python values, exceptions and effects *)

(** The message classes of [langchain_core.messages]; every one of them is a
    subclass of [BaseMessage]. *)
Inductive MsgClass : Type :=
| HumanMessageClass
| AIMessageClass
| SystemMessageClass
| ToolMessageClass.

(** The values the two modules handle: JSON-like data (the state, the config,
    raw pipeline results) and message objects.  A [dict] keeps its items in
    insertion order; its keys are strings, as in a config or a result mapping. *)
#[warnings="-register-all"]
Inductive PyVal : Type :=
| PNone
| PBool (b : bool)
| PInt (n : Z)
| PStr (s : string)
| PList (xs : list PyVal)
| PDict (items : list (string * PyVal))
| PMsg (cls : MsgClass) (content : string) (tool_calls : list PyVal).

(** Instances of [Exception].  [except Exception] handles every one of them. *)
Inductive exn : Type :=
| AttributeError
| KeyError
| TypeError
| ValueError
| ImportError
| RuntimeError
| OtherException (cls : string).

(** The outcome of evaluating an expression: a value or a raised exception. *)
Inductive res (A : Type) : Type :=
| Ok (a : A)
| Raise (e : exn).
Arguments Ok {A} a.
Arguments Raise {A} e.

(** A computation over a mutable store [S] that may raise.  A store change
    made before an exception is raised stays: Python rolls nothing back. *)
Definition M (S A : Type) : Type := S -> res A * S.

Definition ret {S A : Type} (a : A) : M S A := fun s => (Ok a, s).

Definition bind {S A B : Type} (m : M S A) (k : A -> M S B) : M S B :=
  fun s =>
    match m s with
    | (Ok a, s') => k a s'
    | (Raise e, s') => (Raise e, s')
    end.

Definition lift {S A : Type} (r : res A) : M S A := fun s => (r, s).

(** [try: body / except <classes>: handler], the classes given as a test. *)
Definition try_except {S A : Type}
  (body : M S A) (catches : exn -> bool) (handler : exn -> M S A) : M S A :=
  fun s =>
    match body s with
    | (Raise e, s') => if catches e then handler e s' else (Raise e, s')
    | done => done
    end.

Declare Scope py_scope.
Delimit Scope py_scope with py.
Notation "x <- m ;; k" := (bind m (fun x => k))
  (at level 61, m at next level, right associativity) : py_scope.
Notation "m ;;; k" := (bind m (fun _ => k))
  (at level 61, right associativity) : py_scope.

Definition is_AttributeError (e : exn) : bool :=
  match e with AttributeError => true | _ => false end.

(** [except Exception]. *)
Definition is_Exception (e : exn) : bool := true.

(** ** Operations on values *)

Fixpoint dict_get (key : string) (items : list (string * PyVal)) : option PyVal :=
  match items with
  | [] => None
  | (k, v) :: rest => if String.eqb k key then Some v else dict_get key rest
  end.

Definition isinstance_dict (v : PyVal) : bool :=
  match v with PDict _ => true | _ => false end.

Definition isinstance_list (v : PyVal) : bool :=
  match v with PList _ => true | _ => false end.

Definition isinstance_BaseMessage (v : PyVal) : bool :=
  match v with PMsg _ _ _ => true | _ => false end.

(** [key in v] for a dict [v]. *)
Definition py_contains (v : PyVal) (key : string) : bool :=
  match v with
  | PDict items => match dict_get key items with Some _ => true | None => false end
  | _ => false
  end.

(** [v.get(key, default)]: only a dict has a [get] method among these values;
    looking the attribute up on anything else raises [AttributeError]. *)
Definition py_get (v : PyVal) (key : string) (default : PyVal) : res PyVal :=
  match v with
  | PDict items =>
      match dict_get key items with Some x => Ok x | None => Ok default end
  | _ => Raise AttributeError
  end.

(** [v[key]] with a string key: [KeyError] on a dict without the key,
    [TypeError] on a list or a string (their indices are integers) and on
    values that are not subscriptable. *)
Definition py_getitem (v : PyVal) (key : string) : res PyVal :=
  match v with
  | PDict items =>
      match dict_get key items with Some x => Ok x | None => Raise KeyError end
  | _ => Raise TypeError
  end.

(** [v is None]. *)
Definition is_None (v : PyVal) : bool :=
  match v with PNone => true | _ => false end.

(** [all(isinstance(x, BaseMessage) for x in v)] for a list [v]. *)
Definition all_BaseMessage (v : PyVal) : bool :=
  match v with
  | PList xs => forallb isinstance_BaseMessage xs
  | _ => false
  end.

(** [AIMessage(content=...)]. *)
Definition AIMessage (content : string) : PyVal := PMsg AIMessageClass content [].

(** The dict literal [{"messages": v}]. *)
Definition messages_dict (v : PyVal) : PyVal := PDict [("messages", v)].

(** A stand-in for the builtin [str] in closed runs: a string is its own
    rendering, and no run depends on how anything else is rendered. *)
Definition sample_str (v : PyVal) : string :=
  match v with PStr s => s | _ => "<value>" end.

(** * src/assistants.py *)

Module Assistants.

(** The process-wide context the tools read: the current thread and user. *)
Record ThreadContext : Type := {
  thread_id : option PyVal;
  user_id : option PyVal
}.

(** What an assistant does to the world outside it, in order. *)
Inductive Event : Type :=
| SetThreadId (v : PyVal)
| SetUserId (v : PyVal)
| Invoke (seen : ThreadContext) (state config : PyVal).

Record World : Type := {
  context : ThreadContext;
  trace : list Event
}.

(** A bound prompt-and-model pipeline: its [invoke]/[ainvoke] sees the thread
    context in force (its tools read it) and returns a value or raises. *)
Definition Runnable : Type := ThreadContext -> PyVal -> PyVal -> res PyVal.

(** Modelled from the spec: [set_thread_id] of [src/tools.py], which is not
    among the sources; a process-wide setter with no return value that records
    the current thread id in the thread context. *)
Definition set_thread_id (v : PyVal) : M World unit :=
  fun w =>
    (Ok tt,
     {| context := {| thread_id := Some v; user_id := user_id (context w) |};
        trace := trace w ++ [SetThreadId v] |}).

(** Modelled from the spec: [set_user_id] of [src/tools.py], which is not among
    the sources; a process-wide setter with no return value that records the
    current user id in the thread context. *)
Definition set_user_id (v : PyVal) : M World unit :=
  fun w =>
    (Ok tt,
     {| context := {| thread_id := thread_id (context w); user_id := Some v |};
        trace := trace w ++ [SetUserId v] |}).

(** [runnable.invoke(state, config=config)] and its awaited form
    [await runnable.ainvoke(state, config=config)]: one call of the pipeline,
    which suspends the caller until the result is there. *)
Definition invoke (runnable : Runnable) (state config : PyVal) : M World PyVal :=
  fun w =>
    (runnable (context w) state config,
     {| context := context w;
        trace := trace w ++ [Invoke (context w) state config] |}).

Section WithBuiltins.

(** Python's builtin [str]; how it renders a message object is up to the
    message library. *)
Variable py_str : PyVal -> string.

(** [DEFAULT_USER_ID], a constant of [src/tools.py]. *)
Variable DEFAULT_USER_ID : PyVal.

Local Open Scope py_scope.

(** Lines 80-85 of [sales_assistant]: the thread id of the config, or the
    default one. *)
Definition sales_thread_id (config : PyVal) : M World PyVal :=
  thread <- try_except
              (lift (match py_get config "configurable" (PDict []) with
                     | Ok configurable => py_get configurable "thread_id" PNone
                     | Raise e => Raise e
                     end))
              is_AttributeError
              (fun _ => ret PNone) ;;
  ret (if is_None thread then PStr "default-thread" else thread).

(** Lines 93-107 of [sales_assistant]: the result as [{"messages": [...]}]. *)
Definition normalize (result : PyVal) : res PyVal :=
  if isinstance_dict result && py_contains result "messages" then
    match py_getitem result "messages" with
    | Ok messages => Ok (messages_dict messages)
    | Raise e => Raise e
    end
  else if isinstance_BaseMessage result then
    Ok (messages_dict (PList [result]))
  else if isinstance_list result then
    if all_BaseMessage result then Ok (messages_dict result)
    else Ok (messages_dict (PList [AIMessage (py_str result)]))
  else
    Ok (messages_dict (PList [AIMessage (py_str result)])).

Definition sales_assistant (state config : PyVal) (runnable : Runnable)
  : M World PyVal :=
  thread <- sales_thread_id config ;;
  set_thread_id thread ;;;
  set_user_id DEFAULT_USER_ID ;;;
  result <- invoke runnable state config ;;
  lift (normalize result).

(** [support_runnable] is a module-level pipeline; it is an argument here. *)
Definition support_assistant (state config : PyVal) (support_runnable : Runnable)
  : M World PyVal :=
  thread <- lift (match py_getitem config "configurable" with
                  | Ok configurable => py_getitem configurable "thread_id"
                  | Raise e => Raise e
                  end) ;;
  set_thread_id thread ;;;
  result <- invoke support_runnable state config ;;
  ret (messages_dict result).

(** ** What the key path and the normalisation amount to *)

(** The value under [config["configurable"]["thread_id"]], when the config is
    a mapping whose [configurable] entry is a mapping with a [thread_id] key. *)
Definition configured_thread_id (config : PyVal) : option PyVal :=
  match config with
  | PDict items =>
      match dict_get "configurable" items with
      | Some (PDict configurable) => dict_get "thread_id" configurable
      | _ => None
      end
  | _ => None
  end.

(** The thread id the sales assistant settles on. *)
Definition resolved_thread_id (config : PyVal) : PyVal :=
  match configured_thread_id config with
  | Some thread => if is_None thread then PStr "default-thread" else thread
  | None => PStr "default-thread"
  end.

(** The context in force while the sales pipeline runs. *)
Definition sales_context (config : PyVal) : ThreadContext :=
  {| thread_id := Some (resolved_thread_id config);
     user_id := Some DEFAULT_USER_ID |}.

(** The normalisation as the specification words it, clause by clause, each
    clause carrying the failure of the clauses before it. *)
Inductive spec_normalized : PyVal -> PyVal -> Prop :=
| norm_mapping : forall items messages,
    dict_get "messages" items = Some messages ->
    spec_normalized (PDict items) (messages_dict messages)
| norm_message : forall result,
    (isinstance_dict result && py_contains result "messages" = false) ->
    isinstance_BaseMessage result = true ->
    spec_normalized result (messages_dict (PList [result]))
| norm_all_messages : forall xs,
    isinstance_BaseMessage (PList xs) = false ->
    Forall (fun x => isinstance_BaseMessage x = true) xs ->
    spec_normalized (PList xs) (messages_dict (PList xs))
| norm_mixed : forall xs,
    isinstance_BaseMessage (PList xs) = false ->
    Exists (fun x => isinstance_BaseMessage x = false) xs ->
    spec_normalized (PList xs)
      (messages_dict (PList [AIMessage (py_str (PList xs))]))
| norm_other : forall result,
    (isinstance_dict result && py_contains result "messages" = false) ->
    isinstance_BaseMessage result = false ->
    isinstance_list result = false ->
    spec_normalized result (messages_dict (PList [AIMessage (py_str result)])).

(** A non-empty list all of whose elements are message objects. *)
Definition nonempty_message_list (v : PyVal) : bool :=
  match v with
  | PList (x :: xs) => forallb isinstance_BaseMessage (x :: xs)
  | _ => false
  end.

(** ** The runs of the two assistants *)

Lemma sales_thread_id_run (config : PyVal) (w : World) :
  sales_thread_id config w = (Ok (resolved_thread_id config), w).
Proof.
  unfold sales_thread_id, resolved_thread_id, bind, try_except, lift, ret.
  destruct config as [| b | n | s | xs | items | c t k]; simpl; try reflexivity.
  destruct (dict_get "configurable" items) as [configurable |]; simpl;
    [| reflexivity].
  destruct configurable as [| b | n | s | xs | inner | c t k]; simpl;
    try reflexivity.
  destruct (dict_get "thread_id" inner) as [thread |]; reflexivity.
Qed.

Lemma sales_assistant_run (state config : PyVal) (runnable : Runnable) (w : World) :
  sales_assistant state config runnable w =
    (match runnable (sales_context config) state config with
     | Ok result => normalize result
     | Raise e => Raise e
     end,
     {| context := sales_context config;
        trace := trace w ++ [SetThreadId (resolved_thread_id config);
                             SetUserId DEFAULT_USER_ID;
                             Invoke (sales_context config) state config] |}).
Proof.
  unfold sales_assistant, bind at 1.
  rewrite sales_thread_id_run.
  unfold bind, set_thread_id, set_user_id, invoke, lift, sales_context; simpl.
  rewrite <- !app_assoc; simpl.
  destruct (runnable _ state config); reflexivity.
Qed.

(** The exception [config["configurable"]["thread_id"]] raises when the key
    path is missing. *)
Definition missing_path_error (config : PyVal) : exn :=
  match config with
  | PDict items =>
      match dict_get "configurable" items with
      | None => KeyError
      | Some (PDict _) => KeyError
      | Some _ => TypeError
      end
  | _ => TypeError
  end.

Lemma support_assistant_run (state config : PyVal) (runnable : Runnable) (w : World) :
  support_assistant state config runnable w =
    match configured_thread_id config with
    | Some thread =>
        let seen := {| thread_id := Some thread; user_id := user_id (context w) |} in
        (match runnable seen state config with
         | Ok result => Ok (messages_dict result)
         | Raise e => Raise e
         end,
         {| context := seen;
            trace := trace w ++ [SetThreadId thread; Invoke seen state config] |})
    | None => (Raise (missing_path_error config), w)
    end.
Proof.
  unfold support_assistant, configured_thread_id, bind, lift, ret.
  destruct config as [| b | n | s | xs | items | c t k]; simpl; try reflexivity.
  destruct (dict_get "configurable" items) as [configurable |]; simpl;
    [| reflexivity].
  destruct configurable as [| b | n | s | xs | inner | c t k]; simpl;
    try reflexivity.
  destruct (dict_get "thread_id" inner) as [thread |]; simpl; [| reflexivity].
  unfold set_thread_id, invoke; simpl.
  rewrite <- !app_assoc; simpl.
  destruct (runnable _ _ _); reflexivity.
Qed.

(** ** Normalisation *)

Lemma forallb_false_Exists (xs : list PyVal) :
  forallb isinstance_BaseMessage xs = false ->
  Exists (fun x => isinstance_BaseMessage x = false) xs.
Proof.
  induction xs as [| x xs IH]; simpl; intros H.
  - discriminate.
  - destruct (isinstance_BaseMessage x) eqn:Hx.
    + right. apply IH. exact H.
    + left. exact Hx.
Qed.

Lemma Forall_Exists_clash (xs : list PyVal) :
  Forall (fun x => isinstance_BaseMessage x = true) xs ->
  Exists (fun x => isinstance_BaseMessage x = false) xs ->
  False.
Proof.
  intros Hall Hex. induction Hex as [x xs Hx | x xs _ IH].
  - inversion Hall; subst. congruence.
  - inversion Hall; subst. auto.
Qed.

Lemma normalize_follows_spec (result : PyVal) :
  exists out, normalize result = Ok out /\ spec_normalized result out.
Proof.
  destruct result as [| b | n | s | xs | items | c t k]; unfold normalize; simpl;
    try (eexists; split; [reflexivity | apply norm_other; reflexivity]).
  - destruct (forallb isinstance_BaseMessage xs) eqn:Hall.
    + eexists; split; [reflexivity |].
      apply norm_all_messages; [reflexivity |].
      apply Forall_forall. apply forallb_forall. exact Hall.
    + eexists; split; [reflexivity |].
      apply norm_mixed; [reflexivity |].
      apply forallb_false_Exists. exact Hall.
  - destruct (dict_get "messages" items) as [messages |] eqn:Hget; simpl.
    + eexists; split; [reflexivity | apply norm_mapping; exact Hget].
    + eexists; split; [reflexivity |].
      apply norm_other; simpl; try reflexivity. rewrite Hget. reflexivity.
  - eexists; split; [reflexivity | apply norm_message; reflexivity].
Qed.

Lemma spec_normalized_functional (result out1 out2 : PyVal) :
  spec_normalized result out1 -> spec_normalized result out2 -> out1 = out2.
Proof.
  intros H1 H2.
  inversion H1; subst; inversion H2; subst; simpl in *;
    try reflexivity; try discriminate; try congruence;
    try (exfalso; eapply Forall_Exists_clash; eassumption).
  all: match goal with
       | Hget : dict_get "messages" ?items = Some _,
         Hno : match dict_get "messages" ?items with _ => _ end = false |- _ =>
           rewrite Hget in Hno; discriminate
       end.
Qed.

(** ** The claims on the assistants *)

(** C1: whatever the pipeline returns, [sales_assistant] returns its
    normalisation, and that normalisation is the one the five clauses of the
    specification single out, in their order: the [messages] value of a mapping
    that has one, unchanged; else a single message in a one-element list; else
    a list of messages, unchanged; else, for a list with an element that is not
    a message, one synthetic assistant message holding [str] of the list; else
    one synthetic assistant message holding [str] of the result. *)
Theorem sales_assistant_normalizes
  (state config : PyVal) (runnable : Runnable) (w : World) (result : PyVal) :
  runnable (sales_context config) state config = Ok result ->
  exists out,
    fst (sales_assistant state config runnable w) = Ok out /\
    spec_normalized result out /\
    (forall out', spec_normalized result out' -> out' = out).
Proof.
  intros Hrun.
  destruct (normalize_follows_spec result) as [out [Hnorm Hspec]].
  exists out. rewrite sales_assistant_run, Hrun. simpl.
  split; [exact Hnorm |]. split; [exact Hspec |].
  intros out' Hspec'. eapply spec_normalized_functional; eassumption.
Qed.

(** C2, amended: an assistant that returns, returns the mapping
    [{"messages": v}].  For [sales_assistant], [v] is a non-empty list of
    messages when the pipeline result is a single message, a non-empty list or
    anything that is neither a list nor a mapping with a [messages] key; the
    [messages] value of a mapping is passed through whatever it is, and an
    empty list is passed through empty.  For [support_assistant], [v] is the
    raw pipeline result, and the call raises when the config lacks the
    thread-id key path.  Both let an exception of the pipeline through. *)
Theorem assistants_return_messages_mapping
  (state config : PyVal) (runnable : Runnable) (w : World) :
  match runnable (sales_context config) state config with
  | Raise e => fst (sales_assistant state config runnable w) = Raise e
  | Ok result =>
      exists messages,
        fst (sales_assistant state config runnable w) = Ok (messages_dict messages) /\
        match result with
        | PDict items =>
            match dict_get "messages" items with
            | Some v => messages = v
            | None => nonempty_message_list messages = true
            end
        | PList [] => messages = PList []
        | _ => nonempty_message_list messages = true
        end
  end /\
  match configured_thread_id config with
  | None => exists e, fst (support_assistant state config runnable w) = Raise e
  | Some thread =>
      fst (support_assistant state config runnable w) =
        match runnable {| thread_id := Some thread;
                          user_id := user_id (context w) |} state config with
        | Ok result => Ok (messages_dict result)
        | Raise e => Raise e
        end
  end.
Proof.
  split.
  - rewrite sales_assistant_run; simpl.
    destruct (runnable (sales_context config) state config) as [result | e];
      [| reflexivity].
    destruct result as [| b | n | s | xs | items | c t k]; unfold normalize; simpl;
      try (eexists; split; reflexivity).
    + destruct xs as [| x xs]; [eexists; split; reflexivity |].
      simpl. destruct (isinstance_BaseMessage x && forallb isinstance_BaseMessage xs)
        eqn:Hall; eexists; (split; [reflexivity |]); simpl; auto.
    + destruct (dict_get "messages" items) as [v |]; simpl;
        eexists; split; reflexivity.
  - rewrite support_assistant_run.
    destruct (configured_thread_id config) as [thread |]; simpl.
    + reflexivity.
    + eexists; reflexivity.
Qed.

(** C3: for a config without the key path
    [config["configurable"]["thread_id"]] (not a mapping, no [configurable]
    mapping in it, no [thread_id] in that) or with [None] under it, resolving
    the thread id in [sales_assistant] raises nothing and yields
    ["default-thread"], which is the id recorded before the pipeline runs. *)
Theorem sales_malformed_config_uses_default
  (state config : PyVal) (runnable : Runnable) (w : World) :
  configured_thread_id config = None \/ configured_thread_id config = Some PNone ->
  sales_thread_id config w = (Ok (PStr "default-thread"), w) /\
  exists seen,
    thread_id seen = Some (PStr "default-thread") /\
    sales_assistant state config runnable w =
      (match runnable seen state config with
       | Ok result => normalize result
       | Raise e => Raise e
       end,
       {| context := seen;
          trace := trace w ++ [SetThreadId (PStr "default-thread");
                               SetUserId DEFAULT_USER_ID;
                               Invoke seen state config] |}).
Proof.
  intros Hpath.
  assert (Hres : resolved_thread_id config = PStr "default-thread").
  { unfold resolved_thread_id. destruct Hpath as [-> | ->]; reflexivity. }
  split.
  - rewrite sales_thread_id_run, Hres. reflexivity.
  - exists (sales_context config). split.
    + unfold sales_context. simpl. rewrite Hres. reflexivity.
    + rewrite sales_assistant_run, Hres. reflexivity.
Qed.

(** C4: for a config without the key path
    [config["configurable"]["thread_id"]], [support_assistant] raises (a
    [KeyError] or a [TypeError]) before it writes the context or calls the
    pipeline, while [sales_assistant] resolves the default thread id. *)
Theorem support_missing_path_raises
  (state config : PyVal) (runnable : Runnable) (w : World) :
  configured_thread_id config = None ->
  (exists e, (e = KeyError \/ e = TypeError) /\
             support_assistant state config runnable w = (Raise e, w)) /\
  sales_thread_id config w = (Ok (PStr "default-thread"), w).
Proof.
  intros Hpath. split.
  - exists (missing_path_error config). split.
    + unfold missing_path_error.
      destruct config as [| b | n | s | xs | items | c t k]; auto.
      destruct (dict_get "configurable" items) as [[| b | n | s | xs | inner | c t k] |];
        auto.
    + rewrite support_assistant_run, Hpath. reflexivity.
  - rewrite sales_thread_id_run. unfold resolved_thread_id. rewrite Hpath.
    reflexivity.
Qed.

(** C9, amended: [sales_assistant] records the resolved thread id, then the
    default user id, then calls the pipeline, which sees both, and it writes
    the context no more.  [support_assistant] records the thread id of the
    config only: it never writes the user id, which stays what it was; without
    the key path it writes nothing and does not call the pipeline. *)
Theorem assistants_context_writes
  (state config : PyVal) (runnable : Runnable) (w : World) :
  snd (sales_assistant state config runnable w) =
    {| context := sales_context config;
       trace := trace w ++ [SetThreadId (resolved_thread_id config);
                            SetUserId DEFAULT_USER_ID;
                            Invoke (sales_context config) state config] |} /\
  snd (support_assistant state config runnable w) =
    match configured_thread_id config with
    | Some thread =>
        let seen := {| thread_id := Some thread; user_id := user_id (context w) |} in
        {| context := seen;
           trace := trace w ++ [SetThreadId thread; Invoke seen state config] |}
    | None => w
    end.
Proof.
  split.
  - rewrite sales_assistant_run. reflexivity.
  - rewrite support_assistant_run.
    destruct (configured_thread_id config); reflexivity.
Qed.

(** C10: when the pipeline returns the empty list, [sales_assistant] returns
    [{"messages": []}]: the empty list passes the all-messages test and is
    handed back as it is, not wrapped in a synthetic message. *)
Theorem sales_empty_list_passes_through
  (state config : PyVal) (runnable : Runnable) (w : World) :
  runnable (sales_context config) state config = Ok (PList []) ->
  fst (sales_assistant state config runnable w) = Ok (messages_dict (PList [])).
Proof.
  intros Hrun. rewrite sales_assistant_run, Hrun. reflexivity.
Qed.

End WithBuiltins.

(** ** Concrete runs *)

Definition sample_user_id : PyVal := PStr "user-1".

Definition fresh_world : World :=
  {| context := {| thread_id := None; user_id := None |}; trace := [] |}.

(** [{"configurable": {"thread_id": t}}]. *)
Definition thread_config (t : string) : PyVal :=
  PDict [("configurable", PDict [("thread_id", PStr t)])].

(** A pipeline that returns [v] whatever it is given. *)
Definition returning (v : PyVal) : Runnable := fun _ _ _ => Ok v.

Definition mixed_list : PyVal := PList [PMsg HumanMessageClass "hi" []; PInt 3].

Lemma sales_assistant_normalizes_witness :
  returning mixed_list (sales_context sample_user_id (thread_config "t1"))
    (PList []) (thread_config "t1") = Ok mixed_list /\
  exists out,
    fst (sales_assistant sample_str sample_user_id (PList []) (thread_config "t1")
           (returning mixed_list) fresh_world) = Ok out /\
    spec_normalized sample_str mixed_list out /\
    (forall out', spec_normalized sample_str mixed_list out' -> out' = out).
Proof.
  split; [reflexivity |].
  apply (sales_assistant_normalizes sample_str sample_user_id).
  reflexivity.
Defined.

Lemma assistants_messages_value_counterexample :
  fst (sales_assistant sample_str sample_user_id (PList []) (thread_config "t1")
         (returning (PList [])) fresh_world) = Ok (messages_dict (PList [])) /\
  fst (sales_assistant sample_str sample_user_id (PList []) (thread_config "t1")
         (returning (PDict [("messages", PInt 7)])) fresh_world)
    = Ok (messages_dict (PInt 7)) /\
  fst (support_assistant (PList []) (thread_config "t1")
         (returning (PMsg AIMessageClass "hello" [])) fresh_world)
    = Ok (messages_dict (PMsg AIMessageClass "hello" [])) /\
  nonempty_message_list (PList []) = false /\
  nonempty_message_list (PInt 7) = false /\
  nonempty_message_list (PMsg AIMessageClass "hello" []) = false.
Proof. repeat split. Qed.

Lemma sales_malformed_config_uses_default_witness :
  (configured_thread_id (PDict [("configurable", PStr "oops")]) = None \/
   configured_thread_id (PDict [("configurable", PStr "oops")]) = Some PNone) /\
  sales_thread_id (PDict [("configurable", PStr "oops")]) fresh_world
    = (Ok (PStr "default-thread"), fresh_world) /\
  exists seen,
    thread_id seen = Some (PStr "default-thread") /\
    sales_assistant sample_str sample_user_id (PList [])
      (PDict [("configurable", PStr "oops")]) (returning PNone) fresh_world =
      (match returning PNone seen (PList []) (PDict [("configurable", PStr "oops")]) with
       | Ok result => normalize sample_str result
       | Raise e => Raise e
       end,
       {| context := seen;
          trace := trace fresh_world ++
                   [SetThreadId (PStr "default-thread");
                    SetUserId sample_user_id;
                    Invoke seen (PList []) (PDict [("configurable", PStr "oops")])] |}).
Proof.
  split; [left; reflexivity |].
  apply (sales_malformed_config_uses_default sample_str sample_user_id).
  left; reflexivity.
Defined.

Lemma support_missing_path_raises_witness :
  configured_thread_id PNone = None /\
  (exists e, (e = KeyError \/ e = TypeError) /\
             support_assistant (PList []) PNone (returning PNone) fresh_world
               = (Raise e, fresh_world)) /\
  sales_thread_id PNone fresh_world = (Ok (PStr "default-thread"), fresh_world).
Proof.
  split; [reflexivity |].
  apply (support_missing_path_raises (PList []) PNone (returning PNone) fresh_world).
  reflexivity.
Defined.

Lemma support_assistant_skips_user_id_counterexample :
  snd (support_assistant (PList []) (thread_config "t1") (returning PNone) fresh_world) =
    {| context := {| thread_id := Some (PStr "t1"); user_id := None |};
       trace := [SetThreadId (PStr "t1");
                 Invoke {| thread_id := Some (PStr "t1"); user_id := None |}
                   (PList []) (thread_config "t1")] |}.
Proof. reflexivity. Qed.

Lemma sales_empty_list_passes_through_witness :
  returning (PList []) (sales_context sample_user_id PNone) (PList []) PNone
    = Ok (PList []) /\
  fst (sales_assistant sample_str sample_user_id (PList []) PNone
         (returning (PList [])) fresh_world) = Ok (messages_dict (PList [])).
Proof.
  split; [reflexivity |].
  apply (sales_empty_list_passes_through sample_str sample_user_id).
  reflexivity.
Defined.

(** ** Further properties of the assistants *)

Section Further.

Variable py_str : PyVal -> string.
Variable DEFAULT_USER_ID : PyVal.

Lemma normalize_is_messages_dict (result : PyVal) :
  exists messages, normalize py_str result = Ok (messages_dict messages).
Proof.
  destruct result as [| b | n | s | xs | items | c t k]; unfold normalize; simpl;
    try (eexists; reflexivity).
  - destruct (forallb isinstance_BaseMessage xs); eexists; reflexivity.
  - destruct (dict_get "messages" items); simpl; eexists; reflexivity.
Qed.

(** X2: what [sales_assistant] returns is a fixed point of its own
    normalisation: a result that went through lines 93-107 once comes back
    unchanged when it goes through them again. *)
Theorem normalize_idempotent (result out : PyVal) :
  normalize py_str result = Ok out -> normalize py_str out = Ok out.
Proof.
  intros Hnorm.
  destruct (normalize_is_messages_dict result) as [messages Hshape].
  rewrite Hshape in Hnorm. inversion Hnorm; subst out. reflexivity.
Qed.

(** X3: a [support_assistant] call that follows a [sales_assistant] call in
    the same process runs its pipeline with its own thread id and with the
    default user id the sales call left behind, whether or not the sales
    pipeline raised. *)
Theorem support_after_sales_keeps_user_id
  (state1 config1 state2 config2 : PyVal) (runnable1 runnable2 : Runnable)
  (w : World) (thread : PyVal) :
  configured_thread_id config2 = Some thread ->
  snd (support_assistant state2 config2 runnable2
         (snd (sales_assistant py_str DEFAULT_USER_ID state1 config1 runnable1 w))) =
    let seen := {| thread_id := Some thread; user_id := Some DEFAULT_USER_ID |} in
    {| context := seen;
       trace := trace w ++ [SetThreadId (resolved_thread_id config1);
                            SetUserId DEFAULT_USER_ID;
                            Invoke (sales_context DEFAULT_USER_ID config1)
                              state1 config1;
                            SetThreadId thread;
                            Invoke seen state2 config2] |}.
Proof.
  intros Hpath.
  rewrite support_assistant_run, Hpath, sales_assistant_run. simpl.
  rewrite <- app_assoc. reflexivity.
Qed.

(** X4: when the config holds a thread id that is not [None], both assistants
    record that very value, whatever it is: an empty string or a zero is kept
    and not replaced by the default. *)
Theorem assistants_agree_on_configured_thread
  (state config : PyVal) (runnable : Runnable) (w : World) (thread : PyVal) :
  configured_thread_id config = Some thread ->
  is_None thread = false ->
  thread_id (context (snd (sales_assistant py_str DEFAULT_USER_ID
                             state config runnable w))) = Some thread /\
  thread_id (context (snd (support_assistant state config runnable w))) = Some thread.
Proof.
  intros Hpath Hthread.
  rewrite sales_assistant_run, support_assistant_run, Hpath. simpl.
  unfold resolved_thread_id. rewrite Hpath, Hthread. split; reflexivity.
Qed.

(** X5: with [None] stored under [config["configurable"]["thread_id"]] the two
    assistants part ways without either raising: [support_assistant] records
    [None] as the thread id and runs its pipeline, [sales_assistant] records
    ["default-thread"]. *)
Theorem none_thread_id_diverges
  (state config : PyVal) (runnable : Runnable) (w : World) :
  configured_thread_id config = Some PNone ->
  support_assistant state config runnable w =
    (let seen := {| thread_id := Some PNone; user_id := user_id (context w) |} in
     (match runnable seen state config with
      | Ok result => Ok (messages_dict result)
      | Raise e => Raise e
      end,
      {| context := seen;
         trace := trace w ++ [SetThreadId PNone; Invoke seen state config] |})) /\
  thread_id (context (snd (sales_assistant py_str DEFAULT_USER_ID
                             state config runnable w)))
    = Some (PStr "default-thread").
Proof.
  intros Hpath. split.
  - rewrite support_assistant_run, Hpath. reflexivity.
  - rewrite sales_assistant_run. simpl. unfold resolved_thread_id.
    rewrite Hpath. reflexivity.
Qed.

End Further.

Lemma normalize_idempotent_witness :
  normalize sample_str mixed_list
    = Ok (messages_dict (PList [AIMessage (sample_str mixed_list)])) /\
  normalize sample_str (messages_dict (PList [AIMessage (sample_str mixed_list)]))
    = Ok (messages_dict (PList [AIMessage (sample_str mixed_list)])).
Proof.
  split; [reflexivity |].
  apply (normalize_idempotent sample_str mixed_list). reflexivity.
Defined.

(** A pipeline that raises whatever it is given. *)
Definition raising (e : exn) : Runnable := fun _ _ _ => Raise e.

Lemma support_after_sales_keeps_user_id_witness :
  configured_thread_id (thread_config "t2") = Some (PStr "t2") /\
  snd (support_assistant (PList []) (thread_config "t2") (returning PNone)
         (snd (sales_assistant sample_str sample_user_id (PList []) PNone
                 (raising RuntimeError) fresh_world))) =
    let seen := {| thread_id := Some (PStr "t2"); user_id := Some sample_user_id |} in
    {| context := seen;
       trace := trace fresh_world ++
                [SetThreadId (resolved_thread_id PNone);
                 SetUserId sample_user_id;
                 Invoke (sales_context sample_user_id PNone) (PList []) PNone;
                 SetThreadId (PStr "t2");
                 Invoke seen (PList []) (thread_config "t2")] |}.
Proof.
  split; [reflexivity |].
  apply (support_after_sales_keeps_user_id sample_str sample_user_id).
  reflexivity.
Defined.

Lemma assistants_agree_on_configured_thread_witness :
  configured_thread_id (thread_config "") = Some (PStr "") /\
  is_None (PStr "") = false /\
  thread_id (context (snd (sales_assistant sample_str sample_user_id (PList [])
                             (thread_config "") (returning PNone) fresh_world)))
    = Some (PStr "") /\
  thread_id (context (snd (support_assistant (PList []) (thread_config "")
                             (returning PNone) fresh_world))) = Some (PStr "").
Proof.
  split; [reflexivity |]. split; [reflexivity |].
  apply (assistants_agree_on_configured_thread sample_str sample_user_id);
    reflexivity.
Defined.

Definition none_thread_config : PyVal :=
  PDict [("configurable", PDict [("thread_id", PNone)])].

Lemma none_thread_id_diverges_witness :
  configured_thread_id none_thread_config = Some PNone /\
  support_assistant (PList []) none_thread_config (returning PNone) fresh_world =
    (let seen := {| thread_id := Some PNone; user_id := user_id (context fresh_world) |} in
     (match returning PNone seen (PList []) none_thread_config with
      | Ok result => Ok (messages_dict result)
      | Raise e => Raise e
      end,
      {| context := seen;
         trace := trace fresh_world ++
                  [SetThreadId PNone; Invoke seen (PList []) none_thread_config] |})) /\
  thread_id (context (snd (sales_assistant sample_str sample_user_id (PList [])
                             none_thread_config (returning PNone) fresh_world)))
    = Some (PStr "default-thread").
Proof.
  split; [reflexivity |].
  apply (none_thread_id_diverges sample_str sample_user_id). reflexivity.
Defined.

End Assistants.

(** * src/web_search_mcp.py *)

Module WebSearch.

(** ** Strings

    A string is a sequence of characters with code points below 256. *)

(** [c.isspace()]: tab to carriage return, the four separators 28-31, the
    space, NEL and the no-break space. *)
Definition is_space (c : ascii) : bool :=
  let n := nat_of_ascii c in
  (((9 <=? n) && (n <=? 13)) || ((28 <=? n) && (n <=? 32))
   || (n =? 133) || (n =? 160))%nat.

Fixpoint lstrip (s : string) : string :=
  match s with
  | EmptyString => EmptyString
  | String c rest => if is_space c then lstrip rest else s
  end.

Fixpoint rstrip (s : string) : string :=
  match s with
  | EmptyString => EmptyString
  | String c rest =>
      match rstrip rest with
      | EmptyString => if is_space c then EmptyString else String c EmptyString
      | kept => String c kept
      end
  end.

(** [s.strip()]. *)
Definition strip (s : string) : string := rstrip (lstrip s).

(** A string of whitespace only (the empty string is one). *)
Fixpoint all_space (s : string) : bool :=
  match s with
  | EmptyString => true
  | String c rest => is_space c && all_space rest
  end.

(** [c.lower()]: the capital letters of ASCII and of Latin-1 move up by 32. *)
Definition lower_char (c : ascii) : ascii :=
  let n := nat_of_ascii c in
  if (((65 <=? n) && (n <=? 90))
      || ((192 <=? n) && (n <=? 222) && negb (n =? 215)))%nat
  then ascii_of_nat (n + 32) else c.

Fixpoint lower (s : string) : string :=
  match s with
  | EmptyString => EmptyString
  | String c rest => String (lower_char c) (lower rest)
  end.

(** [needle in hay] on strings. *)
Fixpoint str_in (needle hay : string) : bool :=
  String.prefix needle hay
  || match hay with
     | EmptyString => false
     | String _ rest => str_in needle rest
     end.

(** [not s] / [if s] on a string. *)
Definition str_truthy (s : string) : bool :=
  match s with EmptyString => false | _ => true end.

(** Truth value of an object in a condition. *)
Definition truthy (v : PyVal) : bool :=
  match v with
  | PNone => false
  | PBool b => b
  | PInt n => negb (Z.eqb n 0)
  | PStr s => str_truthy s
  | PList xs => match xs with [] => false | _ => true end
  | PDict items => match items with [] => false | _ => true end
  | PMsg _ _ _ => true
  end.

(** [a or b]. *)
Definition py_or (a b : PyVal) : PyVal := if truthy a then a else b.

(** [v.lower()]: a method of strings only. *)
Definition py_lower (v : PyVal) : res string :=
  match v with
  | PStr s => Ok (lower s)
  | _ => Raise AttributeError
  end.

(** ** The environment and the MCP client *)

(** [os.environ]: the variables of the process, name and value. *)
Definition Environ : Type := list (string * string).

(** [os.environ.get(key, default)] and [os.getenv(key, default)]. *)
Fixpoint environ_get (environ : Environ) (key default : string) : string :=
  match environ with
  | [] => default
  | (k, v) :: rest => if String.eqb k key then v else environ_get rest key default
  end.

(** What tool discovery lists for one remote tool: its [name] and [tool_name]
    attributes, each absent or holding some value. *)
Record RemoteTool : Type := {
  attr_name : option PyVal;
  attr_tool_name : option PyVal
}.

(** [getattr(t, attr, None)]. *)
Definition getattr_or_None (attr : option PyVal) : PyVal :=
  match attr with Some v => v | None => PNone end.

(** The world beyond the provider: whether the lazy imports of the [mcp]
    package work, what the client answers to each request, and whether an
    event loop is running in the thread that calls a wrapped tool. *)
Record McpWorld : Type := {
  import_mcp : res unit;
  new_client : string -> res unit;
  add_server : string -> string -> list string -> Environ -> res unit;
  list_tools : res (list RemoteTool);
  call_tool : PyVal -> string -> res PyVal;
  loop_running : bool
}.

(** The attempts at live integration a provider run makes, in order. *)
Inductive McpCall : Type :=
| ImportMcp
| NewClient (transport : string)
| AddServer (name command : string) (args : list string)
| ListTools.

(** One request to the world outside, logged before its outcome is known. *)
Definition request {A : Type} (c : McpCall) (outcome : res A) : M (list McpCall) A :=
  fun log => (outcome, (log ++ [c])%list).

(** ** Tools *)

(** A search tool: a name and a callable from the query to a text result. *)
Record Tool : Type := {
  name : string;
  run : string -> res string
}.

(** A function as a decorator receives it: its name, its docstring when it
    has one, and its body. *)
Record PyFunction : Type := {
  fn_name : string;
  fn_doc : option string;
  fn_body : string -> res string
}.

(** The three ways this module calls [tool] before applying it to a function:
    [@tool("name")], [@tool(name="name")] and [@tool()]. *)
Inductive ToolCall : Type :=
| NamePositional (given_name : string)
| NameKeyword (given_name : string)
| NoArguments.

(** The [tool] decorator of [langchain_core.tools].  The name of the tool is
    its first positional argument and it has no [name] keyword: a call with
    one raises [TypeError] before the function is looked at.  The description
    of the tool is the docstring of the function, and a function without one
    raises [ValueError].  Otherwise the tool carries the given name, or the
    name of the function when none is given, and runs the function. *)
Definition tool (call : ToolCall) (func : PyFunction) : res Tool :=
  match call with
  | NameKeyword _ => Raise TypeError
  | NamePositional given_name =>
      match fn_doc func with
      | Some _ => Ok {| name := given_name; run := fn_body func |}
      | None => Raise ValueError
      end
  | NoArguments =>
      match fn_doc func with
      | Some _ => Ok {| name := fn_name func; run := fn_body func |}
      | None => Raise ValueError
      end
  end.

Definition unavailable_message : string :=
  "Web search is unavailable: missing BRAVE_API_KEY.".

(** The name the loop reads off a discovered tool (line 68). *)
Definition tool_name_of (t : RemoteTool) : PyVal :=
  py_or (getattr_or_None (attr_name t)) (getattr_or_None (attr_tool_name t)).

(** The [_tname] of the [_runner] that the variable of the enclosing function
    holds once the loop is over: the name of the last discovered tool for
    which the loop defined one, [current] if there was none. *)
Fixpoint final_runner_name (tools : list RemoteTool) (current : PyVal) : PyVal :=
  match tools with
  | [] => current
  | t :: rest =>
      if truthy (tool_name_of t)
         && match py_lower (tool_name_of t) with
            | Ok lowered => str_in "brave" lowered
            | Raise _ => false
            end
      then final_runner_name rest (tool_name_of t)
      else final_runner_name rest current
  end.

Section WithBuiltins.

(** Python's builtin [str] on what a remote tool returns. *)
Variable py_str : PyVal -> string.

(** [repr] of an exception, the [{e!r}] of an f-string. *)
Variable py_repr_exn : exn -> string.

Variable mcp : McpWorld.

Local Open Scope py_scope.

(** [_runner(q, _tname=tool_name)]: runs the remote tool and renders what it
    returns, or the error it raised, as a string. *)
Definition _runner (_tname : PyVal) (q : string) : string :=
  match call_tool mcp _tname q with
  | Ok res => py_str res
  | Raise e => "[brave:" ++ py_str _tname ++ "] error: " ++ py_repr_exn e
  end.

(** Lines 86-99, the function [_wrapped]: it has no docstring.  It calls
    [_runner] through the variable of the enclosing function, so what it runs
    is the [_runner] that variable holds at the time of the call,
    [runner_at_call] being its [_tname].  With an event loop running in the
    calling thread both [run_until_complete] calls raise [RuntimeError], the
    second outside the [except]; with none, the fresh loop runs the coroutine
    to its end. *)
Definition _wrapped (runner_at_call : PyVal) : PyFunction :=
  {| fn_name := "_wrapped";
     fn_doc := None;
     fn_body := fun q =>
       if loop_running mcp then Raise RuntimeError
       else Ok (_runner runner_at_call q) |}.

(** Lines 65-101: the loop over the discovered tools, [selected] being the
    list it appends to.  A name that is not a string makes
    [tool_name.lower()] raise, and a tool that passes both tests is decorated
    with [@tool()] before it is appended. *)
Fixpoint wrap_loop (runner_at_call : PyVal) (tools : list RemoteTool)
  (selected : list Tool) : res (list Tool) :=
  match tools with
  | [] => Ok selected
  | t :: rest =>
      let tool_name := tool_name_of t in
      if negb (truthy tool_name) then wrap_loop runner_at_call rest selected
      else
        match py_lower tool_name with
        | Raise e => Raise e
        | Ok lowered =>
            if negb (str_in "brave" lowered)
            then wrap_loop runner_at_call rest selected
            else
              match tool NoArguments (_wrapped runner_at_call) with
              | Raise e => Raise e
              | Ok wrapped =>
                  wrap_loop runner_at_call rest (selected ++ [wrapped])%list
              end
        end
  end.

(** Lines 109-110: no docstring. *)
Definition brave_web_search_stub : PyFunction :=
  {| fn_name := "brave_web_search_stub";
     fn_doc := None;
     fn_body := fun query => Ok ("[brave] (stub) search results for: " ++ query) |}.

(** Lines 118-120: a comment, no docstring. *)
Definition brave_web_search_fallback : PyFunction :=
  {| fn_name := "brave_web_search_stub";
     fn_doc := None;
     fn_body := fun query =>
       Ok ("[brave] (fallback) search results for: " ++ query) |}.

(** Lines 123-124: no docstring. *)
Definition brave_news_search_fallback : PyFunction :=
  {| fn_name := "brave_news_search_stub";
     fn_doc := None;
     fn_body := fun query =>
       Ok ("[brave-news] (fallback) search results for: " ++ query) |}.

(** Lines 35-36: no docstring. *)
Definition brave_web_search_unavailable : PyFunction :=
  {| fn_name := "brave_web_search_unavailable";
     fn_doc := None;
     fn_body := fun query => Ok unavailable_message |}.

(** Lines 43-112: the body of the [try]. *)
Definition live_tools (environ : Environ) (brave_api_key : string)
  : M (list McpCall) (list Tool) :=
  request ImportMcp (import_mcp mcp) ;;;
  request (NewClient "stdio") (new_client mcp "stdio") ;;;
  (let args := ["-y"; "@brave/brave-search-mcp-server";
                "--transport"; "stdio";
                "--brave-api-key"; brave_api_key] in
   request (AddServer "brave" "npx" args)
     (add_server mcp "brave" "npx" args environ)) ;;;
  tools <- request ListTools (list_tools mcp) ;;
  selected <- lift (wrap_loop (final_runner_name tools PNone) tools []) ;;
  match selected with
  | _ :: _ => ret selected
  | [] =>
      stub <- lift (tool (NamePositional "brave_web_search") brave_web_search_stub) ;;
      ret [stub]
  end.

Definition _load_brave_tool (environ : Environ) : M (list McpCall) (list Tool) :=
  let brave_api_key := strip (environ_get environ "BRAVE_API_KEY" "") in
  if negb (str_truthy brave_api_key) then
    unavailable <- lift (tool (NameKeyword "brave_web_search_unavailable")
                           brave_web_search_unavailable) ;;
    ret [unavailable]
  else
    try_except (live_tools environ brave_api_key)
      is_Exception
      (fun _ =>
         web <- lift (tool (NamePositional "brave_web_search")
                        brave_web_search_fallback) ;;
         news <- lift (tool (NameKeyword "brave_news_search")
                         brave_news_search_fallback) ;;
         ret [web; news]).

End WithBuiltins.

Local Open Scope py_scope.

(** Lines 144-151: the function has a docstring (its line breaks are left
    out here) and reads the key the provider captured. *)
Definition brave_web_search (api_key : string) : PyFunction :=
  {| fn_name := "brave_web_search";
     fn_doc := Some "Perform a general web search using Brave Search (stub for tests). Returns a textual placeholder. Requires BRAVE_API_KEY for real queries.";
     fn_body := fun query =>
       if negb (str_truthy api_key) then Ok unavailable_message
       else Ok ("[brave] search results for: " ++ query) |}.

(** Lines 154-161: likewise. *)
Definition brave_news_search (api_key : string) : PyFunction :=
  {| fn_name := "brave_news_search";
     fn_doc := Some "Perform a news-focused search using Brave Search (stub for tests). Returns a textual placeholder. Requires BRAVE_API_KEY for real queries.";
     fn_body := fun query =>
       if negb (str_truthy api_key) then Ok unavailable_message
       else Ok ("[brave-news] search results for: " ++ query) |}.

(** A plain function: it is given no MCP world and makes no request. *)
Definition get_brave_web_search_tool_sync (environ : Environ)
  : M (list McpCall) (list Tool) :=
  let api_key := strip (environ_get environ "BRAVE_API_KEY" "") in
  web <- lift (tool (NamePositional "brave_web_search") (brave_web_search api_key)) ;;
  news <- lift (tool (NamePositional "brave_news_search") (brave_news_search api_key)) ;;
  ret [web; news].

Local Close Scope py_scope.

(** ** Blank keys *)

(** The value of a variable, when it is set. *)
Fixpoint environ_lookup (environ : Environ) (key : string) : option string :=
  match environ with
  | [] => None
  | (k, v) :: rest => if String.eqb k key then Some v else environ_lookup rest key
  end.

(** The credential is absent, or blank: only whitespace, if anything. *)
Definition credential_missing (environ : Environ) : bool :=
  match environ_lookup environ "BRAVE_API_KEY" with
  | None => true
  | Some v => all_space v
  end.

Lemma environ_get_lookup (environ : Environ) (key default : string) :
  environ_get environ key default =
    match environ_lookup environ key with Some v => v | None => default end.
Proof.
  induction environ as [| [k v] rest IH]; simpl; [reflexivity |].
  destruct (String.eqb k key); [reflexivity | exact IH].
Qed.

Lemma lstrip_all_space (s : string) : all_space s = true -> lstrip s = EmptyString.
Proof.
  induction s as [| c rest IH]; simpl; [reflexivity |].
  destruct (is_space c); simpl; [exact IH | discriminate].
Qed.

Lemma lstrip_keeps_a_letter (s : string) :
  all_space s = false -> all_space (lstrip s) = false.
Proof.
  induction s as [| c rest IH]; simpl; [discriminate |].
  destruct (is_space c) eqn:Hc; simpl; [exact IH |].
  intros _. rewrite Hc. reflexivity.
Qed.

Lemma rstrip_empty_all_space (s : string) :
  rstrip s = EmptyString -> all_space s = true.
Proof.
  induction s as [| c rest IH]; simpl; [reflexivity |].
  destruct (rstrip rest) as [| k kept]; [| discriminate].
  destruct (is_space c); [| discriminate].
  intros _. simpl. apply IH. reflexivity.
Qed.

Lemma strip_truthy (s : string) : str_truthy (strip s) = negb (all_space s).
Proof.
  unfold strip. destruct (all_space s) eqn:Hs; simpl.
  - rewrite (lstrip_all_space s Hs). reflexivity.
  - destruct (rstrip (lstrip s)) as [| c kept] eqn:Hr; [| reflexivity].
    apply rstrip_empty_all_space in Hr.
    rewrite (lstrip_keeps_a_letter s Hs) in Hr. discriminate.
Qed.

Lemma credential_truthy (environ : Environ) :
  str_truthy (strip (environ_get environ "BRAVE_API_KEY" "")) =
    negb (credential_missing environ).
Proof.
  rewrite strip_truthy, environ_get_lookup. unfold credential_missing.
  destruct (environ_lookup environ "BRAVE_API_KEY"); reflexivity.
Qed.

(** ** The key on the command line *)

Definition starts_with_space (s : string) : bool :=
  match s with
  | EmptyString => false
  | String c _ => is_space c
  end.

Fixpoint ends_with_space (s : string) : bool :=
  match s with
  | EmptyString => false
  | String c EmptyString => is_space c
  | String _ rest => ends_with_space rest
  end.

Lemma lstrip_no_leading_space (s : string) : starts_with_space (lstrip s) = false.
Proof.
  induction s as [| c rest IH]; simpl; [reflexivity |].
  destruct (is_space c) eqn:Hc; [exact IH | simpl; exact Hc].
Qed.

Lemma rstrip_keeps_head (s : string) :
  starts_with_space s = false -> starts_with_space (rstrip s) = false.
Proof.
  destruct s as [| c rest]; simpl; [reflexivity |].
  intros Hc. destruct (rstrip rest); [rewrite Hc |]; simpl; auto.
Qed.

Lemma rstrip_no_trailing_space (s : string) : ends_with_space (rstrip s) = false.
Proof.
  induction s as [| c rest IH]; simpl; [reflexivity |].
  destruct (rstrip rest) as [| k kept].
  - destruct (is_space c) eqn:Hc; simpl; [reflexivity | exact Hc].
  - exact IH.
Qed.

(** The arguments the Brave server is started with (lines 52-57). *)
Definition server_args (key : string) : list string :=
  ["-y"; "@brave/brave-search-mcp-server"; "--transport"; "stdio";
   "--brave-api-key"; key].

(** The requests of a live attempt that gets to the end of discovery. *)
Definition live_requests (key : string) : list McpCall :=
  [ImportMcp; NewClient "stdio"; AddServer "brave" "npx" (server_args key);
   ListTools].

(** How many of them a live attempt makes: it goes up to the first request
    that raises, and to the discovery when none of the first three does. *)
Definition requests_made (mcp : McpWorld) (environ : Environ) (key : string) : nat :=
  match import_mcp mcp with
  | Raise _ => 1
  | Ok _ =>
      match new_client mcp "stdio" with
      | Raise _ => 2
      | Ok _ =>
          match add_server mcp "brave" "npx" (server_args key) environ with
          | Raise _ => 3
          | Ok _ => 4
          end
      end
  end.

(** ** The claims on the provider *)

Section Claims.

Variable py_str : PyVal -> string.
Variable py_repr_exn : exn -> string.
Variable mcp : McpWorld.

(** The loop appends nothing: the first tool it would append stops it. *)
Lemma wrap_loop_appends_nothing
  (runner_at_call : PyVal) (tools : list RemoteTool) (selected out : list Tool) :
  wrap_loop py_str py_repr_exn mcp runner_at_call tools selected = Ok out ->
  out = selected.
Proof.
  revert selected. induction tools as [| t tools IH]; intros selected; simpl.
  - intros H. inversion H. reflexivity.
  - destruct (truthy (tool_name_of t)); simpl; [| apply IH].
    destruct (py_lower (tool_name_of t)) as [lowered | e]; [| discriminate].
    destruct (str_in "brave" lowered); simpl; [discriminate | apply IH].
Qed.

Lemma live_tools_raises (environ : Environ) (key : string) (log : list McpCall) :
  exists e, fst (live_tools py_str py_repr_exn mcp environ key log) = Raise e.
Proof.
  unfold live_tools, bind, request, lift, ret.
  destruct (import_mcp mcp); [| eexists; reflexivity].
  destruct (new_client mcp "stdio"); [| eexists; reflexivity].
  destruct (add_server mcp _ _ _ _); [| eexists; reflexivity].
  destruct (list_tools mcp) as [found |]; [| eexists; reflexivity].
  destruct (wrap_loop py_str py_repr_exn mcp _ found []) as [selected |] eqn:Hloop;
    [| eexists; reflexivity].
  apply wrap_loop_appends_nothing in Hloop. subst selected.
  eexists; reflexivity.
Qed.

Lemma live_tools_log (environ : Environ) (key : string) (log : list McpCall) :
  snd (live_tools py_str py_repr_exn mcp environ key log) =
    (log ++ firstn (requests_made mcp environ key) (live_requests key))%list.
Proof.
  unfold live_tools, bind, request, lift, ret, requests_made, live_requests,
    server_args.
  destruct (import_mcp mcp); [| reflexivity].
  destruct (new_client mcp "stdio");
    [| simpl; rewrite <- app_assoc; reflexivity].
  destruct (add_server mcp _ _ _ _);
    [| simpl; rewrite <- !app_assoc; reflexivity].
  destruct (list_tools mcp) as [found |];
    [| simpl; rewrite <- !app_assoc; reflexivity].
  destruct (wrap_loop py_str py_repr_exn mcp _ found []) as [selected |];
    [| simpl; rewrite <- !app_assoc; reflexivity].
  destruct selected; simpl; rewrite <- !app_assoc; reflexivity.
Qed.

Lemma load_brave_tool_run (environ : Environ) (log : list McpCall) :
  _load_brave_tool py_str py_repr_exn mcp environ log =
    if credential_missing environ then (Raise TypeError, log)
    else
      (Raise ValueError,
       snd (live_tools py_str py_repr_exn mcp environ
              (strip (environ_get environ "BRAVE_API_KEY" "")) log)).
Proof.
  unfold _load_brave_tool. rewrite credential_truthy.
  destruct (credential_missing environ); simpl; [reflexivity |].
  unfold try_except.
  destruct (live_tools_raises environ
              (strip (environ_get environ "BRAVE_API_KEY" "")) log) as [e He].
  destruct (live_tools _ _ _ _ _ log) as [[tools | e'] log']; simpl in He;
    [discriminate | reflexivity].
Qed.

(** C5, a defect of the code: with the credential absent or blank,
    [_load_brave_tool] returns no tool.  Line 34 calls the decorator with a
    [name] keyword it does not have, outside the [try], and the provider
    raises [TypeError] without having made any request. *)
Theorem no_credential_raises_type_error (environ : Environ) (log : list McpCall) :
  credential_missing environ = true ->
  _load_brave_tool py_str py_repr_exn mcp environ log = (Raise TypeError, log).
Proof.
  intros Hmissing. rewrite load_brave_tool_run, Hmissing. reflexivity.
Qed.

(** C6, a defect of the code: with a credential configured and the live
    attempt raising, the handler does not get to return its two tools.  Its
    first decoration (line 117) is of a function without a docstring, which
    the decorator refuses, and the provider raises [ValueError]. *)
Theorem failed_integration_handler_raises
  (environ : Environ) (log : list McpCall) (e : exn) :
  credential_missing environ = false ->
  fst (live_tools py_str py_repr_exn mcp environ
         (strip (environ_get environ "BRAVE_API_KEY" "")) log) = Raise e ->
  tool (NamePositional "brave_web_search") brave_web_search_fallback
    = Raise ValueError /\
  fst (_load_brave_tool py_str py_repr_exn mcp environ log) = Raise ValueError.
Proof.
  intros Hkey _. rewrite load_brave_tool_run, Hkey. split; reflexivity.
Qed.

(** C7, a defect of the code: [_load_brave_tool] returns a list of tools in
    no environment.  Without a credential it raises [TypeError] (line 34);
    with one, whatever the MCP side does, every path ends in a decoration the
    decorator refuses (lines 85, 108, 117) and it raises [ValueError]. *)
Theorem load_brave_tool_always_raises (environ : Environ) (log : list McpCall) :
  fst (_load_brave_tool py_str py_repr_exn mcp environ log) =
    Raise (if credential_missing environ then TypeError else ValueError).
Proof.
  rewrite load_brave_tool_run.
  destruct (credential_missing environ); reflexivity.
Qed.

(** X6: the provider makes its requests in one fixed order (the lazy imports,
    the client, the server, the discovery) and stops at the first that
    raises: without a credential it makes none, and with one it makes the
    requests up to and including the first failing one, all four when the
    first three succeed. *)
Theorem load_brave_tool_requests_in_order (environ : Environ) (log : list McpCall) :
  snd (_load_brave_tool py_str py_repr_exn mcp environ log) =
    (log ++
     if credential_missing environ then []
     else firstn (requests_made mcp environ
                    (strip (environ_get environ "BRAVE_API_KEY" "")))
            (live_requests (strip (environ_get environ "BRAVE_API_KEY" ""))))%list.
Proof.
  rewrite load_brave_tool_run.
  destruct (credential_missing environ); simpl.
  - rewrite app_nil_r. reflexivity.
  - apply live_tools_log.
Qed.

(** X7: whenever the provider starts the Brave server, the key on its command
    line is the credential with the whitespace around it removed: it is not
    empty and neither begins nor ends with a whitespace character. *)
Theorem server_key_is_trimmed
  (environ : Environ) (name command : string) (args : list string) :
  In (AddServer name command args)
     (snd (_load_brave_tool py_str py_repr_exn mcp environ [])) ->
  exists key,
    args = server_args key /\
    key = strip (environ_get environ "BRAVE_API_KEY" "") /\
    str_truthy key = true /\
    starts_with_space key = false /\
    ends_with_space key = false.
Proof.
  rewrite load_brave_tool_run.
  destruct (credential_missing environ) eqn:Hkey; [intros [] |].
  simpl. rewrite live_tools_log. simpl. intros Hin.
  assert (Hfull : In (AddServer name command args)
                    (live_requests (strip (environ_get environ "BRAVE_API_KEY" "")))).
  { rewrite <- (firstn_skipn
                  (requests_made mcp environ
                     (strip (environ_get environ "BRAVE_API_KEY" "")))
                  (live_requests _)).
    apply in_or_app. left. exact Hin. }
  unfold live_requests in Hfull. simpl in Hfull.
  destruct Hfull as [H | [H | [H | [H | []]]]]; try discriminate.
  inversion H; subst.
  exists (strip (environ_get environ "BRAVE_API_KEY" "")).
  split; [reflexivity |]. split; [reflexivity |].
  split; [rewrite credential_truthy, Hkey; reflexivity |].
  unfold strip. split.
  - apply rstrip_keeps_head. apply lstrip_no_leading_space.
  - apply rstrip_no_trailing_space.
Qed.

End Claims.

(** C8: [get_brave_web_search_tool_sync] makes no request to the MCP side and
    raises nothing, with or without a credential; it returns two tools, named
    [brave_web_search] and [brave_news_search]; each, when called, tests the
    key and returns the unavailable message when the key is absent or blank,
    and a placeholder made from the query otherwise. *)
Theorem sync_provider_two_tools (environ : Environ) (log : list McpCall) :
  exists web news,
    get_brave_web_search_tool_sync environ log = (Ok [web; news], log) /\
    name web = "brave_web_search" /\
    name news = "brave_news_search" /\
    forall query,
      run web query =
        Ok (if credential_missing environ then unavailable_message
            else "[brave] search results for: " ++ query) /\
      run news query =
        Ok (if credential_missing environ then unavailable_message
            else "[brave-news] search results for: " ++ query).
Proof.
  unfold get_brave_web_search_tool_sync, bind, lift, ret. simpl.
  do 2 eexists. split; [reflexivity |].
  split; [reflexivity |]. split; [reflexivity |].
  intros query. simpl. rewrite credential_truthy.
  destruct (credential_missing environ); split; reflexivity.
Qed.

(** ** Concrete runs *)

Definition sample_repr_exn (e : exn) : string := "<exception>".

(** No [mcp] package installed: the lazy imports fail. *)
Definition mcp_not_installed : McpWorld :=
  {| import_mcp := Raise ImportError;
     new_client := fun _ => Raise RuntimeError;
     add_server := fun _ _ _ _ => Raise RuntimeError;
     list_tools := Raise RuntimeError;
     call_tool := fun _ _ => Raise RuntimeError;
     loop_running := false |}.

(** The [mcp] package is there but the Brave server does not start. *)
Definition mcp_server_down : McpWorld :=
  {| import_mcp := Ok tt;
     new_client := fun _ => Ok tt;
     add_server := fun _ _ _ _ => Raise RuntimeError;
     list_tools := Raise RuntimeError;
     call_tool := fun _ _ => Raise RuntimeError;
     loop_running := false |}.

Definition blank_key_environ : Environ := [("HOME", "/root"); ("BRAVE_API_KEY", "  ")].

Definition key_environ : Environ := [("BRAVE_API_KEY", " secret ")].

Lemma no_credential_raises_type_error_witness :
  credential_missing blank_key_environ = true /\
  _load_brave_tool sample_str sample_repr_exn mcp_not_installed blank_key_environ []
    = (Raise TypeError, []).
Proof.
  split; [reflexivity |].
  apply (no_credential_raises_type_error sample_str sample_repr_exn
           mcp_not_installed blank_key_environ []).
  reflexivity.
Defined.

Lemma failed_integration_handler_raises_witness :
  credential_missing key_environ = false /\
  fst (live_tools sample_str sample_repr_exn mcp_not_installed key_environ
         (strip (environ_get key_environ "BRAVE_API_KEY" "")) []) = Raise ImportError /\
  tool (NamePositional "brave_web_search") brave_web_search_fallback
    = Raise ValueError /\
  fst (_load_brave_tool sample_str sample_repr_exn mcp_not_installed key_environ [])
    = Raise ValueError.
Proof.
  split; [reflexivity |]. split; [reflexivity |].
  apply (failed_integration_handler_raises sample_str sample_repr_exn
           mcp_not_installed key_environ [] ImportError); reflexivity.
Defined.

Lemma server_key_is_trimmed_witness :
  In (AddServer "brave" "npx" (server_args "secret"))
     (snd (_load_brave_tool sample_str sample_repr_exn mcp_server_down
             key_environ [])) /\
  exists key,
    server_args "secret" = server_args key /\
    key = strip (environ_get key_environ "BRAVE_API_KEY" "") /\
    str_truthy key = true /\
    starts_with_space key = false /\
    ends_with_space key = false.
Proof.
  assert (Hin : In (AddServer "brave" "npx" (server_args "secret"))
                  (snd (_load_brave_tool sample_str sample_repr_exn mcp_server_down
                          key_environ []))).
  { right. right. left. reflexivity. }
  split; [exact Hin |].
  exact (server_key_is_trimmed sample_str sample_repr_exn mcp_server_down
           key_environ "brave" "npx" (server_args "secret") Hin).
Defined.

End WebSearch.
